(** * A shallow embedding of alonzo.py, a small Monzo API client

    The module is modelled as follows.
    - Decoded JSON values and the Python values the client stores on its
      objects are [pyval]; a JSON object is an association list (a Python
      dict keeps one entry per key; [dget] returns the last binding, as
      [json.loads] keeps the last duplicate, and [dset] updates in place).
    - Header dictionaries may be shared between the caller and the client
      (the caller passes its own dict to [_query]); they live in a heap of
      dicts addressed by locations, so in-place updates are visible to the
      caller.
    - HTTP requests are recorded in the client state; the server's decoded
      reply ([resp.json()]) is an arbitrary function of the request.
    - [date.today()] reads a clock held in the state. *)

From stdpp Require Import gmap strings list fin_maps.
From Stdlib Require Import ZArith Ascii String.

Open Scope string_scope.

(* ------------------------------------------------------------------ *)
(** ** Python values *)

Record date := mkdate { year : Z; month : Z; day : Z }.

(** A [datetime]; [tz_utc] records a [tzutc()] tzinfo (the [Z] suffix). *)
Record datetime := mkdatetime {
  dt_date : date; hour : Z; minute : Z; second : Z; tz_utc : bool }.

#[local] Set Warnings "-register-all".
Inductive pyval :=
| PNone
| PBool (b : bool)
| PInt (z : Z)
| PStr (s : string)
| PList (l : list pyval)
| PDict (d : list (string * pyval))
| PDate (d : date)
| PDateTime (d : datetime).

(** Exceptions raised by the modelled code.  [Unsupported] marks a value
    whose formatting lies outside the modelled subset of [str()]. *)
Inductive exn :=
| KeyError (k : string)
| TypeError
| AttributeError
| ParserError
| OverflowError
| Unsupported
| RemoteError.

Inductive res (A : Type) := Ok (a : A) | Err (e : exn).
Arguments Ok {A} a.
Arguments Err {A} e.

Global Instance res_ret : MRet res := fun _ a => Ok a.
Global Instance res_bind : MBind res :=
  fun _ _ f r => match r with Ok a => f a | Err e => Err e end.

(** Truth value of [not v] / [if v]. *)
Definition py_truthy (v : pyval) : bool :=
  match v with
  | PNone => false
  | PBool b => b
  | PInt z => negb (Z.eqb z 0)
  | PStr s => negb (String.eqb s "")
  | PList l => negb (Nat.eqb (List.length l) 0)
  | PDict d => negb (Nat.eqb (List.length d) 0)
  | PDate _ | PDateTime _ => true
  end.

(* ------------------------------------------------------------------ *)
(** ** Dicts as association lists *)

(** [d[k]] on a dict: the last binding of [k]. *)
Definition dget (k : string) (d : list (string * pyval)) : option pyval :=
  fold_left (fun acc kv => if String.eqb k kv.1 then Some kv.2 else acc) d None.

(** [d[k] = v]: update the existing entry in place, or append. *)
Fixpoint dset (k : string) (v : pyval) (d : list (string * pyval))
  : list (string * pyval) :=
  match d with
  | [] => [(k, v)]
  | (k', v') :: d' => if String.eqb k k' then (k, v) :: d' else (k', v') :: dset k v d'
  end.

(** [d.update(kvs)]. *)
Definition dict_update (d kvs : list (string * pyval)) : list (string * pyval) :=
  fold_left (fun acc kv => dset kv.1 kv.2 acc) kvs d.

(** [v[k]] with a string key. *)
Definition getitem (v : pyval) (k : string) : res pyval :=
  match v with
  | PDict d => match dget k d with Some x => Ok x | None => Err (KeyError k) end
  | _ => Err TypeError
  end.

(** Iteration [for x in v]: lists give their items, dicts their keys,
    strings their characters. *)
Definition py_iter (v : pyval) : res (list pyval) :=
  match v with
  | PList l => Ok l
  | PDict d => Ok (map (fun kv => PStr kv.1) d)
  | PStr s => Ok (map (fun c => PStr (String c EmptyString)) (list_ascii_of_string s))
  | _ => Err TypeError
  end.

Fixpoint mapM {A B} (f : A -> res B) (l : list A) : res (list B) :=
  match l with
  | [] => Ok []
  | x :: l' => y ← f x; ys ← mapM f l'; Ok (y :: ys)
  end.

(* ------------------------------------------------------------------ *)
(** ** Decimal formatting *)

Fixpoint digits_go (fuel : nat) (n : N) (acc : string) : string :=
  match fuel with
  | O => acc
  | S fuel' =>
      let acc' := String (ascii_of_N (48 + N.modulo n 10)) acc in
      if N.ltb n 10 then acc' else digits_go fuel' (N.div n 10) acc'
  end.

(** Decimal digits of a natural number, as [str(n)]. *)
Definition digits (n : N) : string := digits_go (S (N.size_nat n)) n "".

(** Left-pad with zeros to [w] characters. *)
Fixpoint zpad (w : nat) (s : string) : string :=
  match w with
  | O => s
  | S w' => if Nat.leb (S w') (String.length s) then s else zpad w' ("0" ++ s)
  end.

(** [str(z)] of a Python int. *)
Definition int_str (z : Z) : string :=
  if Z.ltb z 0 then "-" ++ digits (Z.to_N (- z)) else digits (Z.to_N z).

(* ------------------------------------------------------------------ *)
(** ** [strftime] and [rfc3339_datetime] *)

(** The fields [strftime] reads: a [date] has a zero time of day. *)
Definition timetuple (v : pyval) : res (date * Z * Z * Z) :=
  match v with
  | PDate d => Ok (d, 0, 0, 0)%Z
  | PDateTime dt => Ok (dt_date dt, hour dt, minute dt, second dt)
  | _ => Err AttributeError
  end.

(** [strftime] for the directives the module uses ([%Y %m %d %H %M %S]
    and [%%]); other characters are copied. *)
Fixpoint strftime_go (fmt : list ascii) (d : date) (h mi s : Z) : string :=
  match fmt with
  | [] => ""
  | "%"%char :: c :: fmt' =>
      let field :=
        match c with
        | "Y"%char => zpad 4 (int_str (year d))
        | "m"%char => zpad 2 (int_str (month d))
        | "d"%char => zpad 2 (int_str (day d))
        | "H"%char => zpad 2 (int_str h)
        | "M"%char => zpad 2 (int_str mi)
        | "S"%char => zpad 2 (int_str s)
        | "%"%char => "%"
        | _ => String "%" (String c EmptyString)
        end in
      field ++ strftime_go fmt' d h mi s
  | c :: fmt' => String c (strftime_go fmt' d h mi s)
  end.

(** [v.strftime(fmt)]. *)
Definition strftime (v : pyval) (fmt : string) : res string :=
  '(d, h, mi, s) ← timetuple v;
  Ok (strftime_go (list_ascii_of_string fmt) d h mi s).

(** [rfc3339_datetime(dt)] (alonzo.py, lines 14-18). *)
Definition rfc3339_datetime (dt : pyval) : res string :=
  strftime dt "%Y-%m-%dT%H:%M:%SZ".

(* ------------------------------------------------------------------ *)
(** ** Calendar arithmetic ([date - timedelta(days=n)]) *)

Definition is_leap (y : Z) : bool :=
  Z.eqb (y mod 4) 0 && (negb (Z.eqb (y mod 100) 0) || Z.eqb (y mod 400) 0).

Definition days_in_month (y m : Z) : Z :=
  if Z.eqb m 2 then (if is_leap y then 29 else 28)
  else if Z.eqb m 4 || Z.eqb m 6 || Z.eqb m 9 || Z.eqb m 11 then 30
  else 31.

(** The calendar day before [d]. *)
Definition prev_day (d : date) : date :=
  if Z.ltb 1 (day d) then mkdate (year d) (month d) (day d - 1)
  else if Z.ltb 1 (month d) then
    mkdate (year d) (month d - 1) (days_in_month (year d) (month d - 1))
  else mkdate (year d - 1) 12 31.

(** [d - timedelta(days=n)]; below [date.min] Python raises
    [OverflowError: date value out of range]. *)
Definition date_sub_days (d : date) (n : nat) : res date :=
  let r := Nat.iter n prev_day d in
  if Z.ltb (year r) 1 then Err OverflowError else Ok r.

Definition valid_date (y m d : Z) : bool :=
  Z.leb 1 y && Z.leb y 9999 && Z.leb 1 m && Z.leb m 12
  && Z.leb 1 d && Z.leb d (days_in_month y m).

(* ------------------------------------------------------------------ *)
(** ** [dateutil.parser.parse] on ISO-8601 timestamps

    The model covers the forms the Monzo API returns:
    [YYYY-MM-DD] and [YYYY-MM-DD(T| )HH:MM:SS] with an optional [Z],
    which gives a [tzutc()] datetime.  Any other string is a
    [ParserError] in the model; a non-string argument is a [TypeError]. *)

Definition digit_val (c : ascii) : option Z :=
  let n := nat_of_ascii c in
  if Nat.leb 48 n && Nat.leb n 57 then Some (Z.of_nat n - 48)%Z else None.

(** Read exactly [k] decimal digits. *)
Fixpoint read_num (k : nat) (acc : Z) (cs : list ascii) : option (Z * list ascii) :=
  match k with
  | O => Some (acc, cs)
  | S k' =>
      match cs with
      | c :: cs' => v ← digit_val c; read_num k' (10 * acc + v)%Z cs'
      | [] => None
      end
  end.

Definition expect (c : ascii) (cs : list ascii) : option (list ascii) :=
  match cs with
  | c' :: cs' => if Ascii.eqb c c' then Some cs' else None
  | [] => None
  end.

Definition parse_time (cs : list ascii) : option (Z * Z * Z * bool) :=
  '(h, cs) ← read_num 2 0 cs; cs ← expect ":" cs;
  '(mi, cs) ← read_num 2 0 cs; cs ← expect ":" cs;
  '(s, cs) ← read_num 2 0 cs;
  match cs with
  | [] => Some (h, mi, s, false)
  | ["Z"%char] => Some (h, mi, s, true)
  | _ => None
  end.

Definition parse_iso (cs : list ascii) : option datetime :=
  '(y, cs) ← read_num 4 0 cs; cs ← expect "-" cs;
  '(m, cs) ← read_num 2 0 cs; cs ← expect "-" cs;
  '(d, cs) ← read_num 2 0 cs;
  '(h, mi, s, tz) ←
    match cs with
    | [] => Some (0, 0, 0, false)%Z
    | sep :: cs' =>
        if Ascii.eqb sep "T" || Ascii.eqb sep " " then parse_time cs' else None
    end;
  if valid_date y m d && Z.ltb h 24 && Z.ltb mi 60 && Z.ltb s 60
  then Some (mkdatetime (mkdate y m d) h mi s tz) else None.

Definition parse_date (v : pyval) : res datetime :=
  match v with
  | PStr s =>
      match parse_iso (list_ascii_of_string s) with
      | Some dt => Ok dt
      | None => Err ParserError
      end
  | _ => Err TypeError
  end.

(* ------------------------------------------------------------------ *)
(** ** [User], [Account] and [Transaction] (alonzo.py, lines 138-187) *)

Record User := mkUser {
  user_id : pyval; preferred_name : pyval; preferred_first_name : pyval }.

(** [User] called with the keyword arguments [**u]: the dict must give
    exactly the three keyword arguments of [User.__init__], otherwise [TypeError]. *)
Definition User_new (u : pyval) : res User :=
  match u with
  | PDict kvs =>
      let d := dict_update [] kvs in
      if forallb (fun kv => String.eqb kv.1 "user_id" || String.eqb kv.1 "preferred_name"
                            || String.eqb kv.1 "preferred_first_name") d
      then match dget "user_id" d, dget "preferred_name" d, dget "preferred_first_name" d with
           | Some a, Some b, Some c => Ok (mkUser a b c)
           | _, _, _ => Err TypeError
           end
      else Err TypeError
  | _ => Err TypeError
  end.

Record Account := mkAccount {
  account_id : pyval; description : pyval; created : pyval;
  account_type : pyval; is_active : bool; owners : list User }.

(** [Account._new_from_api_response(resp)]; the keyword arguments are
    evaluated in the order written. *)
Definition Account_new_from_api_response (resp : pyval) : res Account :=
  i ← getitem resp "id";
  desc ← getitem resp "description";
  c ← getitem resp "created"; cdt ← parse_date c;
  t ← getitem resp "type";
  cl ← getitem resp "closed";
  os ← getitem resp "owners"; us ← py_iter os; owners ← mapM User_new us;
  Ok (mkAccount i desc (PDateTime cdt) t (negb (py_truthy cl)) owners).

(** A [Transaction] instance is its attribute dict [__dict__]. *)
Definition Transaction_new (api_resp : pyval) : res (list (string * pyval)) :=
  match api_resp with
  | PDict kvs =>
      let d := dict_update [] kvs in             (* self.__dict__.update(api_resp) *)
      c ← getitem api_resp "created"; dt ← parse_date c;
      Ok (dset "created" (PDateTime dt) d)        (* self.created = parse_date(...) *)
  | _ => Err TypeError
  end.

Definition getattr (obj : list (string * pyval)) (k : string) : res pyval :=
  match dget k obj with Some v => Ok v | None => Err AttributeError end.

(** [str(v)] for the scalar values a transaction field holds. *)
Definition py_str (v : pyval) : res string :=
  match v with
  | PStr s => Ok s
  | PInt z => Ok (int_str z)
  | PBool b => Ok (if b then "True" else "False")
  | PNone => Ok "None"
  | _ => Err Unsupported
  end.

(** [str(z / 100)] for an int [z]: true division gives a float, printed as
    its shortest round-trip decimal.  For [|z| < 2^50] that decimal is the
    exact value [z / 100] with at least one and at most two fractional
    digits, which is what is written here. *)
Definition str_of_div100 (z : Z) : string :=
  let a := Z.abs z in
  let f := (a mod 100)%Z in
  (if Z.ltb z 0 then "-" else "") ++ int_str (a / 100) ++ "."
  ++ (if Z.eqb (f mod 10) 0 then int_str (f / 10) else zpad 2 (int_str f)).

(** [self.amount / 100], already rendered by [str]. *)
Definition amount_div100_str (v : pyval) : res string :=
  match v with
  | PInt z => Ok (str_of_div100 z)
  | PBool b => Ok (str_of_div100 (if b then 1 else 0))
  | _ => Err TypeError
  end.

(** [Transaction.__repr__]: the arguments of [format] are evaluated in
    order, then each is converted with [str]. *)
Definition Transaction_repr (obj : list (string * pyval)) : res string :=
  c ← getattr obj "created"; cs ← strftime c "%Y-%m-%d %H:%M";
  d ← getattr obj "description";
  cur ← getattr obj "currency";
  a ← getattr obj "amount"; q ← amount_div100_str a;
  ds ← py_str d; curs ← py_str cur;
  Ok ("(" ++ cs ++ ") " ++ ds ++ ": " ++ curs ++ " " ++ q).

(* ------------------------------------------------------------------ *)
(** ** The client: requests, state and the client monad *)

(** A request as handed to [requests.get]. *)
Record request := mkrequest {
  req_method : string; req_url : string; req_params : gmap string pyval;
  req_data : pyval; req_headers : gmap string string }.

(** [heap] holds the header dicts by location; [sent] lists the requests
    issued so far; [today] is what [date.today()] returns. *)
Record state := mkstate {
  heap : gmap Z (gmap string string); next_loc : Z;
  sent : list request; today : date }.

Definition M (A : Type) : Type := state -> res A * state.

Global Instance M_ret : MRet M := fun _ a st => (Ok a, st).
Global Instance M_bind : MBind M := fun _ _ f m st =>
  match m st with
  | (Ok a, st') => f a st'
  | (Err e, st') => (Err e, st')
  end.

Definition lift {A} (r : res A) : M A := fun st => (r, st).

Definition date_today : M date := fun st => (Ok (today st), st).

(** A fresh dict [{}] at a new location. *)
Definition alloc_dict (h : gmap string string) : M Z := fun st =>
  (Ok (next_loc st),
   mkstate (<[next_loc st := h]> (heap st)) (next_loc st + 1)%Z (sent st) (today st)).

Definition read_dict (l : Z) : M (gmap string string) := fun st =>
  (Ok (default ∅ (heap st !! l)), st).

Definition write_dict (l : Z) (h : gmap string string) : M unit := fun st =>
  (Ok (), mkstate (<[l := h]> (heap st)) (next_loc st) (sent st) (today st)).

(** [dst.update(src)]: the entries of [src] win ([∪] is left-biased). *)
Definition headers_update (dst src : gmap string string) : gmap string string :=
  src ∪ dst.

(** The parameters [requests] puts in the query string: it drops
    parameters whose value is [None]. *)
Definition is_none (v : pyval) : bool :=
  match v with PNone => true | _ => false end.

Definition query_params (p : gmap string pyval) : gmap string pyval :=
  filter (fun kv => is_none kv.2 = false) p.

Record MonzoClient := mkclient { token : string }.

Definition base_url (endpoint : string) : string := "https://api.monzo.com/" ++ endpoint.

Section Client.

(** The decoded body [resp.json()] the server answers to a request; [Err]
    stands for transport and decoding failures, which propagate. *)
Variable server : request -> res pyval.

Definition send (r : request) : M pyval := fun st =>
  (server r, mkstate (heap st) (next_loc st) (sent st ++ [r]) (today st)).

(** [MonzoClient._query] (lines 31-48).  [headers] is [None] or the
    location of the caller's dict. *)
Definition _query (self : MonzoClient) (endpoint req_func : string)
    (params : gmap string pyval) (data : pyval) (headers : option Z) : M pyval :=
  let _headers : gmap string string := {["Authorization" := "Bearer " ++ token self]} in
  l ← (match headers with None => alloc_dict ∅ | Some l => mret l end : M Z);
  h ← read_dict l;
  _ ← write_dict l (headers_update h _headers);
  h' ← read_dict l;
  send (mkrequest req_func (base_url endpoint) params data h').

Definition whoami (self : MonzoClient) : M pyval :=
  _query self "ping/whoami" "GET" ∅ PNone None.

(** [MonzoClient.list_accounts] (lines 84-92). *)
Definition list_accounts (self : MonzoClient) : M (list Account) :=
  r ← _query self "accounts" "GET" ∅ PNone None;
  lift (accs ← getitem r "accounts"; l ← py_iter accs;
        mapM Account_new_from_api_response l).

(** The loop of [_get_default_account_id]; falling off the end of the
    function returns [None]. *)
Fixpoint first_active_id (accounts : list Account) : pyval :=
  match accounts with
  | [] => PNone
  | account :: rest => if is_active account then account_id account else first_active_id rest
  end.

(** [MonzoClient._get_default_account_id] (lines 50-59). *)
Definition _get_default_account_id (self : MonzoClient) : M pyval :=
  accounts ← list_accounts self;
  mret (first_active_id accounts).

Definition resolve_account_id (self : MonzoClient) (account_id : pyval) : M pyval :=
  match account_id with
  | PNone => _get_default_account_id self
  | _ => mret account_id
  end.

(** [MonzoClient.get_balance] (lines 94-105). *)
Definition get_balance (self : MonzoClient) (account_id : pyval) : M pyval :=
  aid ← resolve_account_id self account_id;
  _query self "balance" "GET" {["account_id" := aid]} PNone None.

(** [MonzoClient.get_pots] (lines 107-115). *)
Definition get_pots (self : MonzoClient) (account_id : pyval) : M pyval :=
  aid ← resolve_account_id self account_id;
  _query self "pots" "GET" {["account_id" := aid]} PNone None.

(** [MonzoClient._populate_time_params] (lines 61-76). *)
Definition _populate_time_params (params : gmap string pyval) (since before : pyval)
    : M (gmap string pyval) :=
  since ← (match since with
           | PNone => d ← date_today; lift (w ← date_sub_days d 7; Ok (PDate w))
           | _ => mret since
           end : M pyval);
  since ← lift (rfc3339_datetime since);
  let params := <["since" := PStr since]> params in
  match before with
  | PNone => mret params
  | _ => before ← lift (rfc3339_datetime before); mret (<["before" := PStr before]> params)
  end.

(** [MonzoClient.list_transactions] (lines 117-135). *)
Definition list_transactions (self : MonzoClient) (account_id since before full : pyval)
    : M (list (list (string * pyval))) :=
  account_id ← resolve_account_id self account_id;
  let params : gmap string pyval := {["account_id" := account_id]} in
  params ← (if negb (py_truthy full) then _populate_time_params params since before
            else mret params : M (gmap string pyval));
  r ← _query self "transactions" "GET" params PNone None;
  lift (ts ← getitem r "transactions"; l ← py_iter ts; mapM Transaction_new l).

End Client.

(* ================================================================== *)
(** * Properties *)

(* ------------------------------------------------------------------ *)
(** ** Dict lemmas *)

Definition keys (d : list (string * pyval)) : list string := map fst d.

Lemma dget_acc k d acc :
  fold_left (fun acc kv => if String.eqb k kv.1 then Some kv.2 else acc) d acc
  = match dget k d with Some x => Some x | None => acc end.
Proof.
  unfold dget. revert acc. induction d as [|[k' v'] d IH]; intros acc; simpl; [done|].
  rewrite IH, (IH (if String.eqb k k' then Some v' else None)).
  destruct (fold_left _ d None); [done|]. by destruct (String.eqb k k').
Qed.

Lemma dget_cons k k' v d :
  dget k ((k', v) :: d)
  = match dget k d with Some x => Some x | None => if String.eqb k k' then Some v else None end.
Proof. unfold dget at 1. simpl. by rewrite dget_acc. Qed.

Lemma dget_not_key k d : k ∉ keys d -> dget k d = None.
Proof.
  induction d as [|[k' v'] d IH]; intros Hk; [done|].
  rewrite dget_cons. simpl in Hk. rewrite IH by set_solver.
  destruct (String.eqb_spec k k'); [subst; set_solver|done].
Qed.

Lemma keys_dset k v d x : x ∈ keys (dset k v d) <-> x = k \/ x ∈ keys d.
Proof.
  induction d as [|[k' v'] d IH]; simpl; [set_solver|].
  destruct (String.eqb_spec k k'); simpl; [subst; set_solver|].
  rewrite !elem_of_cons, IH. tauto.
Qed.

Lemma NoDup_dset k v d : NoDup (keys d) -> NoDup (keys (dset k v d)).
Proof.
  induction d as [|[k' v'] d IH]; simpl; intros Hnd.
  - constructor; [set_solver|constructor].
  - apply NoDup_cons in Hnd as [Hk' Hnd].
    destruct (String.eqb_spec k k'); simpl; constructor; try done.
    + subst. done.
    + rewrite keys_dset. intros [->|]; done.
    + by apply IH.
Qed.

Lemma dget_dset k k' v d :
  NoDup (keys d) -> dget k (dset k' v d) = if String.eqb k k' then Some v else dget k d.
Proof.
  induction d as [|[k0 v0] d IH]; intros Hnd; simpl.
  - rewrite dget_cons. simpl. done.
  - apply NoDup_cons in Hnd as [Hk0 Hnd].
    destruct (String.eqb_spec k' k0) as [->|Hne].
    + rewrite !dget_cons. destruct (String.eqb_spec k k0) as [->|]; [|done].
      by rewrite dget_not_key.
    + rewrite !dget_cons, IH by done.
      destruct (String.eqb_spec k k'); [done|]. done.
Qed.

Lemma NoDup_dict_update d kvs : NoDup (keys d) -> NoDup (keys (dict_update d kvs)).
Proof.
  revert d. induction kvs as [|[k v] kvs IH]; intros d Hnd; simpl; [done|].
  apply IH. by apply NoDup_dset.
Qed.

Lemma dget_dict_update k d kvs :
  NoDup (keys d) ->
  dget k (dict_update d kvs) = match dget k kvs with Some x => Some x | None => dget k d end.
Proof.
  revert d. induction kvs as [|[k1 v1] kvs IH]; intros d Hnd; simpl; [done|].
  rewrite IH by (by apply NoDup_dset). rewrite dget_dset, dget_cons by done.
  destruct (dget k kvs); [done|]. by destruct (String.eqb k k1).
Qed.

Lemma dget_copy k kvs : dget k (dict_update [] kvs) = dget k kvs.
Proof.
  rewrite dget_dict_update by constructor. by destruct (dget k kvs).
Qed.

Lemma NoDup_copy kvs : NoDup (keys (dict_update [] kvs)).
Proof. apply NoDup_dict_update. constructor. Qed.

(** The object [Transaction(api_resp)] is the copy of [api_resp] with
    [created] replaced by its parse. *)
Lemma Transaction_new_dict kvs :
  Transaction_new (PDict kvs)
  = match dget "created" kvs with
    | None => Err (KeyError "created")
    | Some c => match parse_date c with
                | Ok dt => Ok (dset "created" (PDateTime dt) (dict_update [] kvs))
                | Err e => Err e
                end
    end.
Proof.
  unfold Transaction_new, getitem. destruct (dget "created" kvs); [|done].
  simpl. by destruct (parse_date p).
Qed.

(* ------------------------------------------------------------------ *)
(** ** Formatting and object construction *)

(** C4: [rfc3339_datetime] applied to the date 2020-01-15 gives
    ["2020-01-15T00:00:00Z"]: a date formats with a midnight time and a
    literal [Z]. *)
Theorem rfc3339_datetime_date_2020_01_15 :
  rfc3339_datetime (PDate (mkdate 2020 1 15)) = Ok "2020-01-15T00:00:00Z".
Proof. reflexivity. Qed.

(** The sample account object of the specification. *)
Definition sample_account : pyval :=
  PDict [("id", PStr "acc_1"); ("description", PStr "Current");
         ("created", PStr "2020-01-01T00:00:00Z"); ("type", PStr "uk_retail");
         ("closed", PBool false);
         ("owners", PList [PDict [("user_id", PStr "u1"); ("preferred_name", PStr "Ada");
                                  ("preferred_first_name", PStr "Ada")]])].

(** C7: building an [Account] from the sample object gives an active
    account with exactly one owner, whose preferred name is "Ada", and a
    [created] field holding the parsed datetime 2020-01-01 (not the raw
    string). *)
Theorem sample_account_parsed :
  exists acc, Account_new_from_api_response sample_account = Ok acc
    /\ is_active acc = true
    /\ map preferred_name (owners acc) = [PStr "Ada"]
    /\ exists dt, created acc = PDateTime dt /\ dt_date dt = mkdate 2020 1 1
                  /\ hour dt = 0%Z /\ minute dt = 0%Z /\ second dt = 0%Z.
Proof.
  eexists. split; [reflexivity|]. simpl.
  split; [done|]. split; [done|]. eexists. repeat split.
Qed.

(** C8: a transaction built from an object with [amount] -250 and
    [currency] "GBP" keeps the amount -250 in minor units; only its
    [repr] divides by 100, showing "GBP -2.5". *)
Theorem transaction_amount_minor_units (kvs : list (string * pyval)) t
  (Hamount : dget "amount" kvs = Some (PInt (-250)))
  (Hcurrency : dget "currency" kvs = Some (PStr "GBP"))
  (Hnew : Transaction_new (PDict kvs) = Ok t) :
  dget "amount" t = Some (PInt (-250))
  /\ forall desc, dget "description" kvs = Some (PStr desc) ->
     exists stamp, Transaction_repr t = Ok ("(" ++ stamp ++ ") " ++ desc ++ ": GBP -2.5").
Proof.
  rewrite Transaction_new_dict in Hnew.
  destruct (dget "created" kvs) as [c|]; [|done].
  destruct (parse_date c) as [dt|]; [|done]. injection Hnew as <-.
  assert (Hget : forall k, k <> "created" ->
            dget k (dset "created" (PDateTime dt) (dict_update [] kvs)) = dget k kvs).
  { intros k Hk. rewrite dget_dset by apply NoDup_copy.
    destruct (String.eqb_spec k "created"); [done|]. apply dget_copy. }
  split; [by rewrite Hget|].
  intros desc Hdesc. unfold Transaction_repr, getattr.
  rewrite (Hget "description"), (Hget "currency"), (Hget "amount") by done.
  rewrite Hdesc, Hcurrency, Hamount, dget_dset by apply NoDup_copy.
  simpl. eexists. reflexivity.
Qed.

(** C10: without a [created] key, [Transaction(api_resp)] raises
    [KeyError]; with one, the fields are copied and [created] is then
    replaced by its parse (or the parse error propagates), every other
    field keeping the value of the mapping. *)
Theorem transaction_created_overwritten (kvs : list (string * pyval)) :
  (dget "created" kvs = None -> Transaction_new (PDict kvs) = Err (KeyError "created"))
  /\ (forall v, dget "created" kvs = Some v ->
      (forall e, parse_date v = Err e -> Transaction_new (PDict kvs) = Err e)
      /\ (forall dt, parse_date v = Ok dt ->
          exists t, Transaction_new (PDict kvs) = Ok t
            /\ dget "created" t = Some (PDateTime dt)
            /\ forall k, k <> "created" -> dget k t = dget k kvs)).
Proof.
  rewrite Transaction_new_dict. split; [by intros ->|].
  intros v Hv. rewrite Hv. split; [by intros e ->|].
  intros dt Hdt. rewrite Hdt. eexists. split; [done|].
  rewrite dget_dset by apply NoDup_copy. split; [done|].
  intros k Hk. rewrite dget_dset by apply NoDup_copy.
  destruct (String.eqb_spec k "created"); [done|]. apply dget_copy.
Qed.

(* ------------------------------------------------------------------ *)
(** ** [_query] *)

(** The dict [_query] merges into: the caller's, or a fresh empty one. *)
Definition caller_headers (headers : option Z) (st : state) : gmap string string :=
  match headers with Some l => default ∅ (heap st !! l) | None => ∅ end.

Definition auth_headers (self : MonzoClient) : gmap string string :=
  {["Authorization" := "Bearer " ++ token self]}.

Lemma _query_run server self endpoint req_func params data headers st :
  let l := match headers with Some l => l | None => next_loc st end in
  let h := headers_update (caller_headers headers st) (auth_headers self) in
  let r := mkrequest req_func (base_url endpoint) params data h in
  _query server self endpoint req_func params data headers st
  = (server r, mkstate (<[l := h]> (heap st))
                 (match headers with Some _ => next_loc st | None => next_loc st + 1 end)%Z
                 (sent st ++ [r]) (today st)).
Proof.
  destruct headers as [l|]; unfold _query, caller_headers, auth_headers;
    cbv [mbind M_bind mret M_ret read_dict write_dict alloc_dict send];
    cbn [heap next_loc sent today].
  - by rewrite lookup_insert_eq.
  - by rewrite !lookup_insert_eq, insert_insert_eq.
Qed.

(** C1: whatever headers the caller passes (one with its own
    [Authorization] entry included), the request [_query] sends carries
    [Authorization: Bearer <token>]; the caller's other entries are kept. *)
Theorem query_sends_bearer_token server self endpoint req_func params data
    (headers : option Z) st :
  exists r, sent (snd (_query server self endpoint req_func params data headers st))
              = (sent st ++ [r])%list
    /\ req_headers r !! "Authorization" = Some ("Bearer " ++ token self)
    /\ forall k, k <> "Authorization" -> req_headers r !! k = caller_headers headers st !! k.
Proof.
  rewrite _query_run. eexists. split; [reflexivity|]. simpl.
  unfold headers_update, auth_headers. split.
  - by apply lookup_union_Some_l, lookup_singleton_eq.
  - intros k Hk. rewrite lookup_union_r; [done|]. by rewrite lookup_singleton_ne.
Qed.

(** C9: a headers dict passed by the caller is updated in place: after the
    call the caller's own dict holds the [Authorization] entry. *)
Theorem query_updates_caller_headers server self endpoint req_func params data
    (l : Z) (h : gmap string string) st
    (Hl : heap st !! l = Some h) :
  heap (snd (_query server self endpoint req_func params data (Some l) st)) !! l
  = Some (<["Authorization" := "Bearer " ++ token self]> h).
Proof.
  rewrite _query_run. simpl. rewrite lookup_insert_eq. unfold caller_headers.
  rewrite Hl. simpl. unfold headers_update, auth_headers.
  by rewrite insert_union_singleton_l.
Qed.

(* ------------------------------------------------------------------ *)
(** ** Default-account resolution *)

Lemma mapM_Forall2 {A B} (f : A -> res B) l l' :
  mapM f l = Ok l' -> Forall2 (fun x y => f x = Ok y) l l'.
Proof.
  revert l'. induction l as [|x l IH]; intros l' H; simpl in H.
  - injection H as <-. constructor.
  - destruct (f x) as [y|] eqn:Hx; [|done]. simpl in H.
    destruct (mapM f l) as [ys|] eqn:Hl; [|done]. simpl in H.
    injection H as <-. constructor; [done|]. by apply IH.
Qed.

(** [is_active] is [not resp['closed']]. *)
Lemma Account_new_is_active resp acc c :
  Account_new_from_api_response resp = Ok acc ->
  getitem resp "closed" = Ok c -> is_active acc = negb (py_truthy c).
Proof.
  intros H Hc. unfold Account_new_from_api_response in H.
  rewrite Hc in H. cbv [mbind res_bind] in H.
  repeat match type of H with
  | context [match ?x with Ok _ => _ | Err _ => _ end] =>
      let E := fresh in destruct x eqn:E; [|discriminate H]
  end.
  injection H as <-. done.
Qed.

Lemma first_active_id_first (accounts : list Account) :
  Exists (fun a => is_active a = true) accounts ->
  exists pre a post, accounts = (pre ++ a :: post)%list
    /\ Forall (fun b => is_active b = false) pre /\ is_active a = true
    /\ first_active_id accounts = account_id a.
Proof.
  induction accounts as [|b rest IH]; intros Hex; [by inversion Hex|]. simpl.
  destruct (is_active b) eqn:Hb.
  - exists [], b, rest. auto.
  - apply Exists_cons in Hex as [Hex|Hex]; [congruence|].
    destruct (IH Hex) as (pre & a & post & -> & Hpre & Ha & Hid).
    exists (b :: pre), a, post. auto.
Qed.

Lemma first_active_id_none (accounts : list Account) :
  Forall (fun a => is_active a = false) accounts -> first_active_id accounts = PNone.
Proof.
  induction 1 as [|a rest Ha _ IH]; simpl; [done|]. by rewrite Ha.
Qed.

Section Accounts.

Variable server : request -> res pyval.
Variable self : MonzoClient.
Variable resp : pyval.
Variable js : list pyval.
Variable accounts : list Account.

(** The account-list reply: [resp['accounts']] lists [js], which all
    decode into [accounts]. *)
Hypothesis Hserver : forall r, req_url r = base_url "accounts" -> server r = Ok resp.
Hypothesis Hresp : getitem resp "accounts" = Ok (PList js).
Hypothesis Hdecode : mapM Account_new_from_api_response js = Ok accounts.

Lemma list_accounts_run st :
  exists st', list_accounts server self st = (Ok accounts, st')
    /\ today st' = today st
    /\ exists r, sent st' = (sent st ++ [r])%list /\ req_url r = base_url "accounts".
Proof.
  unfold list_accounts. cbv [mbind M_bind]. rewrite _query_run.
  rewrite Hserver by reflexivity. unfold lift.
  cbv [mbind res_bind]. rewrite Hresp. simpl. rewrite Hdecode.
  eexists. split; [reflexivity|]. split; [done|]. eexists. split; reflexivity.
Qed.

Lemma get_balance_default_run st :
  fst (_get_default_account_id server self st) = Ok (first_active_id accounts)
  /\ exists r1 r2,
    sent (snd (get_balance server self PNone st)) = (sent st ++ [r1; r2])%list
    /\ req_url r1 = base_url "accounts" /\ req_url r2 = base_url "balance"
    /\ req_params r2 = {["account_id" := first_active_id accounts]}
    /\ fst (get_balance server self PNone st) = server r2.
Proof.
  destruct (list_accounts_run st) as (st' & Hrun & _ & r1 & Hsent & Hurl).
  unfold get_balance, resolve_account_id, _get_default_account_id.
  cbv [mbind M_bind mret M_ret]. rewrite Hrun. split; [done|].
  rewrite _query_run. simpl. rewrite Hsent, <- app_assoc.
  eexists r1, _. split; [reflexivity|]. auto.
Qed.

End Accounts.

Lemma Forall2_Exists_transfer {A B} (R : A -> B -> Prop) (P : A -> Prop) (Q : B -> Prop) l l' :
  (forall x y, R x y -> P x -> Q y) -> Forall2 R l l' -> Exists P l -> Exists Q l'.
Proof.
  intros HPQ. induction 1 as [|x y l l' Hxy _ IH]; intros Hex; [by inversion Hex|].
  apply Exists_cons in Hex as [Hx|Hl]; [left; eauto|right; auto].
Qed.

Lemma Forall2_Forall_transfer {A B} (R : A -> B -> Prop) (P : A -> Prop) (Q : B -> Prop) l l' :
  (forall x y, R x y -> P x -> Q y) -> Forall2 R l l' -> Forall P l -> Forall Q l'.
Proof.
  intros HPQ. induction 1 as [|x y l l' Hxy _ IH]; intros Hall; [constructor|].
  apply Forall_cons in Hall as [Hx Hl]. constructor; eauto.
Qed.

(** C2: when at least one account of the reply has [closed] false, the
    default account is the first account, in server order, whose
    [is_active] is true, and [get_balance()] without an account id sends
    its balance request with that id as [account_id]. *)
Theorem default_account_first_active server self resp (js : list pyval)
    (accounts : list Account) st
  (Hserver : forall r, req_url r = base_url "accounts" -> server r = Ok resp)
  (Hresp : getitem resp "accounts" = Ok (PList js))
  (Hdecode : mapM Account_new_from_api_response js = Ok accounts)
  (Hopen : Exists (fun j => getitem j "closed" = Ok (PBool false)) js) :
  exists pre a post, accounts = (pre ++ a :: post)%list
    /\ Forall (fun b => is_active b = false) pre /\ is_active a = true
    /\ fst (_get_default_account_id server self st) = Ok (account_id a)
    /\ exists r1 r2,
         sent (snd (get_balance server self PNone st)) = (sent st ++ [r1; r2])%list
         /\ req_url r2 = base_url "balance"
         /\ req_params r2 = {["account_id" := account_id a]}.
Proof.
  assert (Hact : Exists (fun a => is_active a = true) accounts).
  { eapply Forall2_Exists_transfer; [|apply mapM_Forall2, Hdecode|exact Hopen].
    intros j a Hj Hc. by rewrite (Account_new_is_active _ _ _ Hj Hc). }
  destruct (first_active_id_first _ Hact) as (pre & a & post & Heq & Hpre & Ha & Hid).
  destruct (get_balance_default_run server self resp js accounts Hserver Hresp Hdecode st)
    as (Hdef & r1 & r2 & Hsent & _ & Hurl & Hparams & _).
  exists pre, a, post. rewrite <- Hid. repeat split; try done.
  exists r1, r2. done.
Qed.

(** C3: when every account of the reply has [closed] true, the default
    account resolution returns [None] without raising, and [get_balance()]
    still sends its request, with [account_id] bound to [None], which
    [requests] leaves out of the query string. *)
Theorem default_account_all_closed server self resp (js : list pyval)
    (accounts : list Account) st
  (Hserver : forall r, req_url r = base_url "accounts" -> server r = Ok resp)
  (Hresp : getitem resp "accounts" = Ok (PList js))
  (Hdecode : mapM Account_new_from_api_response js = Ok accounts)
  (Hclosed : Forall (fun j => getitem j "closed" = Ok (PBool true)) js) :
  fst (_get_default_account_id server self st) = Ok PNone
  /\ exists r1 r2,
       sent (snd (get_balance server self PNone st)) = (sent st ++ [r1; r2])%list
       /\ req_url r2 = base_url "balance"
       /\ req_params r2 = {["account_id" := PNone]}
       /\ query_params (req_params r2) = ∅
       /\ fst (get_balance server self PNone st) = server r2.
Proof.
  assert (Hnone : first_active_id accounts = PNone).
  { apply first_active_id_none.
    eapply Forall2_Forall_transfer; [|apply mapM_Forall2, Hdecode|exact Hclosed].
    intros j a Hj Hc. by rewrite (Account_new_is_active _ _ _ Hj Hc). }
  destruct (get_balance_default_run server self resp js accounts Hserver Hresp Hdecode st)
    as (Hdef & r1 & r2 & Hsent & _ & Hurl & Hparams & Hres).
  rewrite Hnone in Hdef, Hparams. split; [done|].
  exists r1, r2. repeat split; try done.
  rewrite Hparams. unfold query_params. by rewrite map_filter_singleton_False.
Qed.

(* ------------------------------------------------------------------ *)
(** ** [list_transactions] *)

Lemma bind_run {A B} (m : M A) (f : A -> M B) st :
  (m ≫= f) st = match m st with (Ok a, st') => f a st' | (Err e, st') => (Err e, st') end.
Proof. reflexivity. Qed.

Lemma bind_lift_state {A B} (m : M A) (g : A -> res B) st :
  snd ((m ≫= fun x => lift (g x)) st) = snd (m st).
Proof. rewrite bind_run. by destruct (m st) as [[a|e] st']. Qed.

(** Resolving the account id sends account-list requests only and leaves
    the clock alone. *)
Lemma resolve_account_id_sends server self account_id st :
  today (snd (resolve_account_id server self account_id st)) = today st
  /\ exists rs, sent (snd (resolve_account_id server self account_id st)) = (sent st ++ rs)%list
     /\ Forall (fun r => req_url r = base_url "accounts") rs.
Proof.
  destruct account_id; try (split; [done|]; exists []; simpl; by rewrite app_nil_r).
  unfold resolve_account_id, _get_default_account_id. rewrite bind_run.
  assert (Hst : snd (list_accounts server self st)
                = snd (_query server self "accounts" "GET" ∅ PNone None st))
    by apply bind_lift_state.
  rewrite _query_run in Hst.
  destruct (list_accounts server self st) as [[a|e] st']; simpl in *; subst st';
    (split; [done|]); eexists; (split; [reflexivity|]); by repeat constructor.
Qed.

Lemma is_none_spec v : is_none v = true <-> v = PNone.
Proof. destruct v; simpl; intuition congruence. Qed.

(** [_populate_time_params] as a single step: the state is unchanged. *)
Lemma populate_time_params_unfold params since before st :
  _populate_time_params params since before st =
  (match (if is_none since then (w ← date_sub_days (today st) 7; Ok (PDate w))
          else Ok since) ≫= rfc3339_datetime with
   | Ok s =>
       if is_none before then Ok (<["since" := PStr s]> params)
       else b ← rfc3339_datetime before; Ok (<["before" := PStr b]> (<["since" := PStr s]> params))
   | Err e => Err e
   end, st).
Proof.
  destruct since, before; cbv [_populate_time_params mbind M_bind mret M_ret lift date_today];
    simpl; try reflexivity;
    destruct (date_sub_days (today st) 7); simpl; try reflexivity;
    destruct (rfc3339_datetime _); reflexivity.
Qed.

Lemma before_param (params p : gmap string pyval) s before :
  (if is_none before then Ok (<["since" := PStr s]> params)
   else b ← rfc3339_datetime before; Ok (<["before" := PStr b]> (<["since" := PStr s]> params)))
  = Ok p ->
  p !! "since" = Some (PStr s)
  /\ (before = PNone -> p !! "before" = params !! "before")
  /\ (before <> PNone -> exists b, p !! "before" = Some (PStr b)
                                   /\ rfc3339_datetime before = Ok b).
Proof.
  destruct (is_none before) eqn:Hb.
  - apply is_none_spec in Hb as ->. intros [= <-].
    rewrite lookup_insert_eq, lookup_insert_ne by done. done.
  - assert (before <> PNone) by (intros ->; discriminate Hb).
    destruct (rfc3339_datetime before) as [b|] eqn:Hr; simpl; [|done].
    intros [= <-]. rewrite lookup_insert_ne, lookup_insert_eq by done.
    split; [done|]. split; [done|]. intros _. exists b. by rewrite lookup_insert_eq.
Qed.

(** [_populate_time_params] does not change the state; its result binds
    [since] and, when given, [before]. *)
Lemma populate_time_params_run (params : gmap string pyval) since before st :
  snd (_populate_time_params params since before st) = st
  /\ forall p, fst (_populate_time_params params since before st) = Ok p ->
     (exists s, p !! "since" = Some (PStr s)
        /\ (since = PNone -> exists d, date_sub_days (today st) 7 = Ok d
                                     /\ rfc3339_datetime (PDate d) = Ok s)
        /\ (since <> PNone -> rfc3339_datetime since = Ok s))
     /\ (before = PNone -> p !! "before" = params !! "before")
     /\ (before <> PNone -> exists b, p !! "before" = Some (PStr b)
                                      /\ rfc3339_datetime before = Ok b).
Proof.
  rewrite populate_time_params_unfold. split; [done|]. simpl. intros p Hp.
  destruct (is_none since) eqn:Hs.
  - apply is_none_spec in Hs as ->.
    destruct (date_sub_days (today st) 7) as [d|] eqn:Hd; cbv [mbind res_bind] in Hp; [|done].
    destruct (rfc3339_datetime (PDate d)) as [s|] eqn:Hr; [|done].
    destruct (before_param _ _ _ _ Hp) as (Hsince & Hb1 & Hb2).
    split; [|auto]. exists s. split; [done|]. split; [eauto|]. by intros [].
  - assert (since <> PNone) by (intros ->; discriminate Hs). cbv [mbind res_bind] in Hp.
    destruct (rfc3339_datetime since) as [s|] eqn:Hr; [|done].
    destruct (before_param _ _ _ _ Hp) as (Hsince & Hb1 & Hb2).
    split; [|auto]. exists s. split; [done|]. split; [done|]. auto.
Qed.

Lemma accounts_not_transactions (rs : list request) (P : request -> Prop) :
  Forall (fun r => req_url r = base_url "accounts") rs ->
  Forall (fun r => req_url r = base_url "transactions" -> P r) rs.
Proof. intros H. eapply Forall_impl; [exact H|]. intros r Hr Hr2. rewrite Hr in Hr2. discriminate Hr2. Qed.

(** C5: with [full=True], whatever [since] and [before] are, the
    transactions request carries [account_id] as its only parameter:
    neither [since] nor [before] is sent. *)
Theorem list_transactions_full_no_time_filter server self account_id since before st :
  exists rs,
    sent (snd (list_transactions server self account_id since before (PBool true) st))
    = (sent st ++ rs)%list
    /\ Forall (fun r => req_url r = base_url "transactions" ->
                 (exists a, req_params r = {["account_id" := a]})
                 /\ req_params r !! "since" = None /\ req_params r !! "before" = None) rs.
Proof.
  unfold list_transactions. rewrite bind_run.
  destruct (resolve_account_id_sends server self account_id st) as (_ & rs & Hsent & Hrs).
  destruct (resolve_account_id server self account_id st) as [[a|e] st1]; simpl in Hsent |- *.
  - rewrite bind_run. cbn [py_truthy negb]. cbv [mret M_ret].
    rewrite bind_lift_state, _query_run. simpl.
    exists (rs ++ [mkrequest "GET" (base_url "transactions") {["account_id" := a]} PNone
             (headers_update (caller_headers None st1) (auth_headers self))])%list.
    rewrite Hsent, app_assoc. split; [done|].
    apply Forall_app. split; [by apply accounts_not_transactions|].
    constructor; [|constructor]. intros _. simpl.
    split; [eauto|]. by rewrite !lookup_singleton_ne.
  - exists rs. split; [done|]. by apply accounts_not_transactions.
Qed.

(** C6: with [full=False], the transactions request carries [since]: the
    [rfc3339_datetime] of [today - 7 days], today being the date at the
    call, when [since] is not given, of [since] otherwise; and it carries
    [before], formatted the same way, exactly when [before] is given. *)
Theorem list_transactions_time_window server self account_id since before st :
  exists rs,
    sent (snd (list_transactions server self account_id since before (PBool false) st))
    = (sent st ++ rs)%list
    /\ Forall (fun r => req_url r = base_url "transactions" ->
         (exists s, req_params r !! "since" = Some (PStr s)
            /\ (since = PNone -> exists d, date_sub_days (today st) 7 = Ok d
                                         /\ rfc3339_datetime (PDate d) = Ok s)
            /\ (since <> PNone -> rfc3339_datetime since = Ok s))
         /\ (before = PNone -> req_params r !! "before" = None)
         /\ (before <> PNone -> exists b, req_params r !! "before" = Some (PStr b)
                                          /\ rfc3339_datetime before = Ok b)) rs.
Proof.
  unfold list_transactions. rewrite bind_run.
  destruct (resolve_account_id_sends server self account_id st) as (Htoday & rs & Hsent & Hrs).
  destruct (resolve_account_id server self account_id st) as [[a|e] st1];
    simpl in Htoday, Hsent |- *.
  - rewrite bind_run. cbn [py_truthy negb].
    destruct (populate_time_params_run {["account_id" := a]} since before st1) as [Hst Hok].
    destruct (_populate_time_params {["account_id" := a]} since before st1) as [[p|e] st2];
      simpl in Hst, Hok; subst st2.
    + rewrite bind_lift_state, _query_run. simpl.
      exists (rs ++ [mkrequest "GET" (base_url "transactions") p PNone
               (headers_update (caller_headers None st1) (auth_headers self))])%list.
      rewrite Hsent, app_assoc. split; [done|].
      apply Forall_app. split; [by apply accounts_not_transactions|].
      constructor; [|constructor]. intros _. simpl.
      destruct (Hok p eq_refl) as ((s & Hs & Hs1 & Hs2) & Hb1 & Hb2).
      rewrite Htoday in Hs1. split; [eauto|]. split; [|done].
      intros Hb. rewrite Hb1 by done. by rewrite lookup_singleton_ne.
    + exists rs. split; [done|]. by apply accounts_not_transactions.
  - exists rs. split; [done|]. by apply accounts_not_transactions.
Qed.

(* ------------------------------------------------------------------ *)
(** ** Concrete runs *)

Definition acct_json (i : string) (closed : bool) : pyval :=
  PDict [("id", PStr i); ("description", PStr "Current");
         ("created", PStr "2020-01-01T00:00:00Z"); ("type", PStr "uk_retail");
         ("closed", PBool closed); ("owners", PList [])].

Definition accounts_reply (js : list pyval) : pyval := PDict [("accounts", PList js)].

(** A server that answers the account list with [resp], and every other
    request with an empty transaction list. *)
Definition fixed_server (resp : pyval) (r : request) : res pyval :=
  if String.eqb (req_url r) (base_url "accounts") then Ok resp
  else Ok (PDict [("transactions", PList [])]).

Definition st0 : state := mkstate ∅ 0 [] (mkdate 2020 1 15).

Definition client0 : MonzoClient := mkclient "tok".

Lemma fixed_server_accounts resp r :
  req_url r = base_url "accounts" -> fixed_server resp r = Ok resp.
Proof. intros Hr. unfold fixed_server. by rewrite Hr, String.eqb_refl. Qed.

Definition sample_transaction : list (string * pyval) :=
  [("id", PStr "tx_1"); ("created", PStr "2020-02-29T13:05:09Z");
   ("description", PStr "Coffee"); ("amount", PInt (-250)); ("currency", PStr "GBP")].

Example transaction_repr_sample :
  (t ← Transaction_new (PDict sample_transaction); Transaction_repr t)
  = Ok "(2020-02-29 13:05) Coffee: GBP -2.5".
Proof. reflexivity. Qed.

Example list_transactions_window_sample :
  map req_params (sent (snd (list_transactions (fixed_server (accounts_reply [acct_json "acc_1" true; acct_json "acc_2" false])) client0 PNone PNone PNone
                                (PBool false) st0)))
  = [∅; {["account_id" := PStr "acc_2"; "since" := PStr "2020-01-08T00:00:00Z"]}].
Proof. vm_compute. reflexivity. Qed.

Example list_transactions_full_sample :
  map req_params (sent (snd (list_transactions
                               (fixed_server (accounts_reply [acct_json "acc_1" true; acct_json "acc_2" false]))
                               client0 PNone (PDate (mkdate 2019 5 1)) (PDate (mkdate 2019 6 1))
                               (PBool true) st0)))
  = [∅; {["account_id" := PStr "acc_2"]}].
Proof. vm_compute. reflexivity. Qed.

(* ------------------------------------------------------------------ *)
(** ** Witnesses *)

Lemma query_updates_caller_headers_witness :
  heap (mkstate {[0%Z := {["Authorization" := "Basic abc"; "Accept" := "json"]}]} 1 []
          (mkdate 2020 1 15)) !! 0%Z
    = Some {["Authorization" := "Basic abc"; "Accept" := "json"]}
  /\ heap (snd (_query (fun _ => Ok PNone) client0 "ping/whoami" "GET" ∅ PNone (Some 0%Z)
                  (mkstate {[0%Z := {["Authorization" := "Basic abc"; "Accept" := "json"]}]} 1 []
                     (mkdate 2020 1 15)))) !! 0%Z
     = Some (<["Authorization" := "Bearer " ++ token client0]>
               {["Authorization" := "Basic abc"; "Accept" := "json"]}).
Proof.
  split; [reflexivity|].
  apply query_updates_caller_headers. reflexivity.
Defined.

Lemma transaction_amount_minor_units_witness :
  dget "amount" sample_transaction = Some (PInt (-250))
  /\ dget "currency" sample_transaction = Some (PStr "GBP")
  /\ exists t, Transaction_new (PDict sample_transaction) = Ok t
     /\ dget "amount" t = Some (PInt (-250))
     /\ forall desc, dget "description" sample_transaction = Some (PStr desc) ->
        exists stamp, Transaction_repr t = Ok ("(" ++ stamp ++ ") " ++ desc ++ ": GBP -2.5").
Proof.
  split; [reflexivity|]. split; [reflexivity|].
  eexists. split; [reflexivity|].
  apply transaction_amount_minor_units; reflexivity.
Defined.

Lemma default_account_first_active_witness :
  let js := [acct_json "acc_1" true; acct_json "acc_2" false; acct_json "acc_3" false] in
  (forall r, req_url r = base_url "accounts" -> fixed_server (accounts_reply js) r = Ok (accounts_reply js))
  /\ getitem (accounts_reply js) "accounts" = Ok (PList js)
  /\ Exists (fun j => getitem j "closed" = Ok (PBool false)) js
  /\ exists accounts, mapM Account_new_from_api_response js = Ok accounts
     /\ exists pre a post, accounts = (pre ++ a :: post)%list
        /\ Forall (fun b => is_active b = false) pre /\ is_active a = true
        /\ fst (_get_default_account_id (fixed_server (accounts_reply js)) client0 st0)
           = Ok (account_id a)
        /\ exists r1 r2,
             sent (snd (get_balance (fixed_server (accounts_reply js)) client0 PNone st0))
             = (sent st0 ++ [r1; r2])%list
             /\ req_url r2 = base_url "balance"
             /\ req_params r2 = {["account_id" := account_id a]}.
Proof.
  intros js. split; [apply fixed_server_accounts|]. split; [reflexivity|].
  split; [right; left; reflexivity|].
  eexists. split; [reflexivity|].
  apply default_account_first_active with (resp := accounts_reply js) (js := js).
  - apply fixed_server_accounts.
  - reflexivity.
  - reflexivity.
  - right. left. reflexivity.
Defined.

Lemma default_account_all_closed_witness :
  let js := [acct_json "acc_1" true; acct_json "acc_2" true] in
  (forall r, req_url r = base_url "accounts" -> fixed_server (accounts_reply js) r = Ok (accounts_reply js))
  /\ getitem (accounts_reply js) "accounts" = Ok (PList js)
  /\ Forall (fun j => getitem j "closed" = Ok (PBool true)) js
  /\ exists accounts, mapM Account_new_from_api_response js = Ok accounts
     /\ fst (_get_default_account_id (fixed_server (accounts_reply js)) client0 st0) = Ok PNone
     /\ exists r1 r2,
          sent (snd (get_balance (fixed_server (accounts_reply js)) client0 PNone st0))
          = (sent st0 ++ [r1; r2])%list
          /\ req_url r2 = base_url "balance"
          /\ req_params r2 = {["account_id" := PNone]}
          /\ query_params (req_params r2) = ∅
          /\ fst (get_balance (fixed_server (accounts_reply js)) client0 PNone st0)
             = fixed_server (accounts_reply js) r2.
Proof.
  intros js. split; [apply fixed_server_accounts|]. split; [reflexivity|].
  split; [repeat constructor|].
  eexists. split; [reflexivity|].
  eapply default_account_all_closed with (resp := accounts_reply js) (js := js).
  - apply fixed_server_accounts.
  - reflexivity.
  - reflexivity.
  - repeat constructor.
Defined.

(* ================================================================== *)
(** * Further properties of the client *)

(* ------------------------------------------------------------------ *)
(** ** Requests a computation sends *)

(** [m] appends at most [n] requests to [sent], each satisfying [P]. *)
Definition sends_within (n : nat) (P : request -> Prop) {A} (m : M A) : Prop :=
  forall st, exists rs, sent (snd (m st)) = (sent st ++ rs)%list
                        /\ List.length rs <= n /\ Forall P rs.

Lemma sends_within_ret {A} n P (a : A) : sends_within n P (mret a).
Proof. intros st. exists []. rewrite app_nil_r. split; [done|]. simpl. split; [lia|done]. Qed.

Lemma sends_within_lift {A} n P (r : res A) : sends_within n P (lift r).
Proof. intros st. exists []. rewrite app_nil_r. split; [done|]. simpl. split; [lia|done]. Qed.

Lemma sends_within_weaken {A} n k P (m : M A) :
  n <= k -> sends_within n P m -> sends_within k P m.
Proof.
  intros Hle Hm st. destruct (Hm st) as (rs & Hs & Hl & Hf). exists rs. split; [done|]. split; [lia|done].
Qed.

Lemma sends_within_bind {A B} n k P (m : M A) (f : A -> M B) :
  sends_within n P m -> (forall a, sends_within k P (f a)) -> sends_within (n + k) P (m ≫= f).
Proof.
  intros Hm Hf st. rewrite bind_run.
  destruct (Hm st) as (rs1 & Hs1 & Hl1 & Hp1).
  destruct (m st) as [[a|e] st1]; simpl in Hs1 |- *.
  - destruct (Hf a st1) as (rs2 & Hs2 & Hl2 & Hp2).
    exists (rs1 ++ rs2)%list. rewrite Hs2, Hs1, app_assoc. split; [done|].
    rewrite length_app. split; [lia|]. by apply Forall_app.
  - exists rs1. split; [done|]. split; [lia|done].
Qed.

Lemma sends_within_query server self endpoint req_func params data headers P :
  (forall st, P (mkrequest req_func (base_url endpoint) params data
                   (headers_update (caller_headers headers st) (auth_headers self)))) ->
  sends_within 1 P (_query server self endpoint req_func params data headers).
Proof.
  intros HP st. rewrite _query_run. eexists. split; [reflexivity|].
  split; [simpl; lia|]. repeat constructor. apply HP.
Qed.

Lemma sends_within_populate n P params since before :
  sends_within n P (_populate_time_params params since before).
Proof.
  intros st. destruct (populate_time_params_run params since before st) as [Hst _].
  exists []. rewrite Hst, app_nil_r. split; [done|]. simpl. split; [lia|done].
Qed.

Ltac sends_step :=
  match goal with
  | |- sends_within _ _ (_ ≫= _) => eapply sends_within_bind; [|intros ?]
  | |- sends_within _ _ (mret _) => apply sends_within_ret
  | |- sends_within _ _ (lift _) => apply sends_within_lift
  | |- sends_within _ _ (_populate_time_params _ _ _) => apply sends_within_populate
  | |- sends_within _ _ (_query _ _ _ _ _ _ _) => apply sends_within_query
  end.

Section Sends.

Variable server : request -> res pyval.
Variable self : MonzoClient.
Variable P : request -> Prop.

(** [P] holds of every request the client can build. *)
Hypothesis HP : forall endpoint params h,
  h !! "Authorization" = Some ("Bearer " ++ token self) ->
  P (mkrequest "GET" (base_url endpoint) params PNone h).

Lemma auth_in_headers headers st :
  headers_update (caller_headers headers st) (auth_headers self) !! "Authorization"
  = Some ("Bearer " ++ token self).
Proof. by apply lookup_union_Some_l, lookup_singleton_eq. Qed.

Lemma whoami_sends : sends_within 1 P (whoami server self).
Proof. apply sends_within_query. intros st. apply HP, auth_in_headers. Qed.

Lemma list_accounts_sends : sends_within 1 P (list_accounts server self).
Proof.
  unfold list_accounts. change 1 with (1 + 0).
  repeat sends_step. intros st. apply HP, auth_in_headers.
Qed.

Lemma resolve_sends account_id : sends_within 1 P (resolve_account_id server self account_id).
Proof.
  destruct account_id;
    [|apply (sends_within_weaken 0); [lia|apply sends_within_ret] ..].
  unfold resolve_account_id, _get_default_account_id. change 1 with (1 + 0).
  apply sends_within_bind; [apply list_accounts_sends|intros; apply sends_within_ret].
Qed.

Lemma get_balance_sends account_id : sends_within 2 P (get_balance server self account_id).
Proof.
  unfold get_balance. change 2 with (1 + 1).
  apply sends_within_bind; [apply resolve_sends|intros a].
  apply sends_within_query. intros st. apply HP, auth_in_headers.
Qed.

Lemma get_pots_sends account_id : sends_within 2 P (get_pots server self account_id).
Proof.
  unfold get_pots. change 2 with (1 + 1).
  apply sends_within_bind; [apply resolve_sends|intros a].
  apply sends_within_query. intros st. apply HP, auth_in_headers.
Qed.

Lemma list_transactions_sends account_id since before full :
  sends_within 2 P (list_transactions server self account_id since before full).
Proof.
  unfold list_transactions. change 2 with (1 + (0 + (1 + 0))).
  apply sends_within_bind; [apply resolve_sends|intros a].
  apply sends_within_bind.
  - destruct (negb (py_truthy full)); [apply sends_within_populate|apply sends_within_ret].
  - intros p. repeat sends_step. intros st. apply HP, auth_in_headers.
Qed.

End Sends.

(** Every request any public method of the client sends carries
    [Authorization: Bearer <token>]. *)
Theorem public_methods_send_bearer_token server self :
  let auth := fun r => req_headers r !! "Authorization" = Some ("Bearer " ++ token self) in
  sends_within 1 auth (whoami server self)
  /\ sends_within 1 auth (list_accounts server self)
  /\ (forall account_id, sends_within 2 auth (get_balance server self account_id))
  /\ (forall account_id, sends_within 2 auth (get_pots server self account_id))
  /\ (forall account_id since before full,
        sends_within 2 auth (list_transactions server self account_id since before full)).
Proof.
  intros auth.
  assert (HP : forall endpoint params h,
             h !! "Authorization" = Some ("Bearer " ++ token self) ->
             auth (mkrequest "GET" (base_url endpoint) params PNone h)) by done.
  split; [by apply whoami_sends|]. split; [by apply list_accounts_sends|].
  split; [intros; by apply get_balance_sends|].
  split; [intros; by apply get_pots_sends|].
  intros; by apply list_transactions_sends.
Qed.

(** No retries: [whoami] and [list_accounts] send at most one request,
    [get_balance], [get_pots] and [list_transactions] at most two (the
    account list, when the account id is resolved, and their own). *)
Theorem public_methods_request_count server self :
  let any := fun _ : request => True in
  sends_within 1 any (whoami server self)
  /\ sends_within 1 any (list_accounts server self)
  /\ (forall account_id, sends_within 2 any (get_balance server self account_id))
  /\ (forall account_id, sends_within 2 any (get_pots server self account_id))
  /\ (forall account_id since before full,
        sends_within 2 any (list_transactions server self account_id since before full)).
Proof.
  intros any.
  assert (HP : forall endpoint params (h : gmap string string),
             h !! "Authorization" = Some ("Bearer " ++ token self) ->
             any (mkrequest "GET" (base_url endpoint) params PNone h)) by done.
  split; [by apply whoami_sends|]. split; [by apply list_accounts_sends|].
  split; [intros; by apply get_balance_sends|].
  split; [intros; by apply get_pots_sends|].
  intros; by apply list_transactions_sends.
Qed.

(** With an explicit account id, [get_balance] and [get_pots] send exactly
    one request, to their endpoint with that id as [account_id], and
    return the decoded reply unchanged; so does [whoami], with no
    parameters. *)
Theorem explicit_account_single_request server self account_id st
  (Hid : account_id <> PNone) :
  (exists r, get_balance server self account_id st
             = (server r, snd (get_balance server self account_id st))
     /\ sent (snd (get_balance server self account_id st)) = (sent st ++ [r])%list
     /\ req_url r = base_url "balance" /\ req_params r = {["account_id" := account_id]})
  /\ (exists r, get_pots server self account_id st
             = (server r, snd (get_pots server self account_id st))
     /\ sent (snd (get_pots server self account_id st)) = (sent st ++ [r])%list
     /\ req_url r = base_url "pots" /\ req_params r = {["account_id" := account_id]})
  /\ (exists r, whoami server self st = (server r, snd (whoami server self st))
     /\ sent (snd (whoami server self st)) = (sent st ++ [r])%list
     /\ req_url r = base_url "ping/whoami" /\ req_params r = ∅).
Proof.
  assert (Hres : resolve_account_id server self account_id = mret account_id)
    by (destruct account_id; done).
  unfold get_balance, get_pots, whoami. rewrite Hres.
  split; [|split]; rewrite ?bind_run; cbv [mret M_ret]; rewrite _query_run;
    eexists; repeat split; reflexivity.
Qed.

(** [get_pots()] without an account id resolves it as [get_balance()]
    does: it sends the account-list request, then its own request with
    the first active account's id (or [None]) as [account_id]. *)
Theorem get_pots_default_account server self resp (js : list pyval)
    (accounts : list Account) st
  (Hserver : forall r, req_url r = base_url "accounts" -> server r = Ok resp)
  (Hresp : getitem resp "accounts" = Ok (PList js))
  (Hdecode : mapM Account_new_from_api_response js = Ok accounts) :
  exists r1 r2,
    sent (snd (get_pots server self PNone st)) = (sent st ++ [r1; r2])%list
    /\ req_url r1 = base_url "accounts" /\ req_url r2 = base_url "pots"
    /\ req_params r2 = {["account_id" := first_active_id accounts]}
    /\ fst (get_pots server self PNone st) = server r2.
Proof.
  destruct (list_accounts_run server self resp js accounts Hserver Hresp Hdecode st)
    as (st' & Hrun & _ & r1 & Hsent & Hurl).
  unfold get_pots, resolve_account_id, _get_default_account_id.
  cbv [mbind M_bind mret M_ret]. rewrite Hrun.
  rewrite _query_run. simpl. rewrite Hsent, <- app_assoc.
  eexists r1, _. split; [reflexivity|]. auto.
Qed.

(* ------------------------------------------------------------------ *)
(** ** Decoding the replies *)

Lemma Forall2_mapM {A B} (f : A -> res B) l l' :
  Forall2 (fun x y => f x = Ok y) l l' -> mapM f l = Ok l'.
Proof. induction 1 as [|x y l l' Hxy _ IH]; simpl; [done|]. by rewrite Hxy, IH. Qed.

Lemma bind_fst_ok {A B} (m : M A) (f : A -> M B) st b :
  fst ((m ≫= f) st) = Ok b ->
  exists a st1, m st = (Ok a, st1) /\ fst (f a st1) = Ok b.
Proof.
  rewrite bind_run. destruct (m st) as [[a|e] st1]; simpl; [eauto|done].
Qed.

(** [list_accounts] keeps the server's order and decodes all or nothing:
    it returns [accounts] exactly when the reply lists objects that decode,
    one by one, into [accounts]; a reply object without an [accounts] key
    gives [KeyError], after the request has been sent. *)
Theorem list_accounts_decodes_in_order server self resp st
  (Hserver : forall r, req_url r = base_url "accounts" -> server r = Ok resp) :
  (forall (js : list pyval) accounts, getitem resp "accounts" = Ok (PList js) ->
     fst (list_accounts server self st) = Ok accounts
     <-> Forall2 (fun j a => Account_new_from_api_response j = Ok a) js accounts)
  /\ (forall kvs, resp = PDict kvs -> dget "accounts" kvs = None ->
        fst (list_accounts server self st) = Err (KeyError "accounts")
        /\ exists r, sent (snd (list_accounts server self st)) = (sent st ++ [r])%list).
Proof.
  assert (Hrun : list_accounts server self st
                 = (resp' ← getitem resp "accounts"; l ← py_iter resp';
                    mapM Account_new_from_api_response l,
                    snd (_query server self "accounts" "GET" ∅ PNone None st))).
  { unfold list_accounts. rewrite bind_run, _query_run. simpl.
    rewrite Hserver by reflexivity. reflexivity. }
  rewrite _query_run in Hrun. cbn [snd] in Hrun.
  split.
  - intros js accounts Hresp. rewrite Hrun, Hresp. simpl. split.
    + apply mapM_Forall2.
    + apply Forall2_mapM.
  - intros kvs -> Hk. rewrite Hrun. cbn [fst snd sent]. split.
    + cbv [mbind res_bind getitem]. by rewrite Hk.
    + eexists. reflexivity.
Qed.

(** Whatever its arguments, when [list_transactions] returns, its result
    decodes the reply's [transactions] list one by one, in server order. *)
Theorem list_transactions_decodes_in_order server self resp (ts : list pyval)
    account_id since before full st txs
  (Hserver : forall r, req_url r = base_url "transactions" -> server r = Ok resp)
  (Hresp : getitem resp "transactions" = Ok (PList ts))
  (Hok : fst (list_transactions server self account_id since before full st) = Ok txs) :
  Forall2 (fun t o => Transaction_new t = Ok o) ts txs.
Proof.
  unfold list_transactions in Hok.
  apply bind_fst_ok in Hok as (a & st1 & _ & Hok).
  apply bind_fst_ok in Hok as (p & st2 & _ & Hok).
  apply bind_fst_ok in Hok as (r & st3 & Hq & Hok).
  rewrite _query_run in Hq. injection Hq as Hq _.
  rewrite Hserver in Hq by reflexivity. injection Hq as <-.
  simpl in Hok. rewrite Hresp in Hok. simpl in Hok. by apply mapM_Forall2.
Qed.

(* ------------------------------------------------------------------ *)
(** ** [Account], [User] and [Transaction] objects *)


(** An account object missing any of [id], [description], [created],
    [type], [closed] or [owners] does not decode. *)
Theorem account_missing_key_fails (kvs : list (string * pyval)) k
  (Hk : k ∈ ["id"; "description"; "created"; "type"; "closed"; "owners"])
  (Hmissing : dget k kvs = None) :
  exists e, Account_new_from_api_response (PDict kvs) = Err e.
Proof.
  cbv [Account_new_from_api_response getitem mbind res_bind].
  repeat (apply elem_of_cons in Hk as [->|Hk]);
    [..|by apply not_elem_of_nil in Hk]; rewrite Hmissing;
    repeat case_match; eauto.
Qed.




Lemma strftime_datetime dt fmt :
  strftime (PDateTime dt) fmt
  = Ok (strftime_go (list_ascii_of_string fmt) (dt_date dt) (hour dt) (minute dt) (second dt)).
Proof. reflexivity. Qed.

(** [repr] of a transaction needs [description], [currency] and [amount]:
    without one of them it raises [AttributeError]; with a string amount
    the division by 100 raises [TypeError]. *)
Theorem transaction_repr_errors (kvs : list (string * pyval)) t
  (Hnew : Transaction_new (PDict kvs) = Ok t) :
  (dget "description" kvs = None \/ dget "currency" kvs = None \/ dget "amount" kvs = None ->
   Transaction_repr t = Err AttributeError)
  /\ (forall d c s, dget "description" kvs = Some d -> dget "currency" kvs = Some c ->
      dget "amount" kvs = Some (PStr s) -> Transaction_repr t = Err TypeError).
Proof.
  rewrite Transaction_new_dict in Hnew.
  destruct (dget "created" kvs) as [c|]; [|done].
  destruct (parse_date c) as [dt|]; [|done]. injection Hnew as <-.
  assert (Hget : forall k, k <> "created" ->
            dget k (dset "created" (PDateTime dt) (dict_update [] kvs)) = dget k kvs).
  { intros k Hk. rewrite dget_dset by apply NoDup_copy.
    destruct (String.eqb_spec k "created"); [done|]. apply dget_copy. }
  unfold Transaction_repr, getattr.
  rewrite (Hget "description"), (Hget "currency"), (Hget "amount") by done.
  rewrite dget_dset by apply NoDup_copy. rewrite String.eqb_refl.
  cbv [mbind res_bind]. rewrite strftime_datetime. split.
  - intros [H|[H|H]]; rewrite H; repeat case_match; congruence.
  - intros d c' s -> -> ->. done.
Qed.

(* ------------------------------------------------------------------ *)
(** ** Time parameters that are not dates *)




(* ------------------------------------------------------------------ *)
(** ** The header heap *)

(** Every allocated dict lies below [next_loc]. *)
Definition heap_ok (st : state) : Prop :=
  forall l, is_Some (heap st !! l) -> (l < next_loc st)%Z.

(** [_query] changes no header dict but the one it merges into: the
    caller's when one is passed, a fresh one otherwise; so a call without
    headers leaves every existing dict as it was. *)
Theorem query_frame server self endpoint req_func params data (headers : option Z) st
  (Hok : heap_ok st)
  (Hheaders : match headers with Some l0 => is_Some (heap st !! l0) | None => True end) :
  let st' := snd (_query server self endpoint req_func params data headers st) in
  heap_ok st'
  /\ (forall l, match headers with Some l0 => l <> l0 | None => True end ->
        is_Some (heap st !! l) -> heap st' !! l = heap st !! l).
Proof.
  intros st'. subst st'. rewrite _query_run. cbn [snd heap next_loc]. split.
  - intros l Hl. cbn [heap next_loc] in Hl |- *. destruct headers as [l0|].
    + apply lookup_insert_is_Some in Hl as [->|[_ Hl]]; apply Hok; done.
    + apply lookup_insert_is_Some in Hl as [->|[_ Hl]]; [lia|]. specialize (Hok l Hl). lia.
  - intros l Hne Hl. destruct headers as [l0|].
    + by rewrite lookup_insert_ne.
    + rewrite lookup_insert_ne; [done|]. specialize (Hok l Hl). lia.
Qed.

(* ------------------------------------------------------------------ *)
(** ** Dates *)






(* ------------------------------------------------------------------ *)
(** ** [rfc3339_datetime] and [parse_date] *)











(* ------------------------------------------------------------------ *)
(** ** Witnesses of the further properties *)

(** A server with one active account and one transaction. *)
Definition sample_server (r : request) : res pyval :=
  if String.eqb (req_url r) (base_url "accounts") then Ok (accounts_reply [acct_json "acc_1" false])
  else Ok (PDict [("transactions", PList [PDict sample_transaction])]).

Definition sample_owner_kvs : list (string * pyval) :=
  [("user_id", PStr "u1"); ("preferred_name", PStr "Ada"); ("preferred_first_name", PStr "Ada")].

Definition sample_account_kvs : list (string * pyval) :=
  [("id", PStr "acc_1"); ("description", PStr "Current");
   ("created", PStr "2020-01-01T00:00:00Z"); ("type", PStr "uk_retail");
   ("closed", PBool false); ("owners", PList [PDict sample_owner_kvs])].

Lemma explicit_account_single_request_witness :
  PStr "acc_1" <> PNone
  /\ exists r, sent (snd (get_pots sample_server client0 (PStr "acc_1") st0)) = (sent st0 ++ [r])%list
     /\ req_url r = base_url "pots" /\ req_params r = {["account_id" := PStr "acc_1"]}.
Proof.
  split; [discriminate|].
  destruct (proj1 (proj2 (explicit_account_single_request sample_server client0 (PStr "acc_1") st0
                            ltac:(discriminate)))) as (r & _ & Hs & Hu & Hp).
  exists r. auto.
Defined.

Lemma get_pots_default_account_witness :
  let js := [acct_json "acc_1" true; acct_json "acc_2" false] in
  (forall r, req_url r = base_url "accounts" -> fixed_server (accounts_reply js) r = Ok (accounts_reply js))
  /\ getitem (accounts_reply js) "accounts" = Ok (PList js)
  /\ exists accounts, mapM Account_new_from_api_response js = Ok accounts
     /\ first_active_id accounts = PStr "acc_2"
     /\ exists r1 r2,
          sent (snd (get_pots (fixed_server (accounts_reply js)) client0 PNone st0))
          = (sent st0 ++ [r1; r2])%list
          /\ req_url r2 = base_url "pots" /\ req_params r2 = {["account_id" := PStr "acc_2"]}.
Proof.
  intros js. split; [apply fixed_server_accounts|]. split; [reflexivity|].
  eexists. split; [reflexivity|]. split; [reflexivity|].
  destruct (get_pots_default_account (fixed_server (accounts_reply js)) client0
              (accounts_reply js) js _ st0 (fixed_server_accounts _) eq_refl eq_refl)
    as (r1 & r2 & Hs & _ & Hu & Hp & _).
  exists r1, r2. auto.
Defined.

Lemma list_accounts_decodes_in_order_witness :
  let js := [acct_json "acc_1" true; acct_json "acc_2" false] in
  (forall r, req_url r = base_url "accounts" -> fixed_server (accounts_reply js) r = Ok (accounts_reply js))
  /\ (exists accounts, Forall2 (fun j a => Account_new_from_api_response j = Ok a) js accounts
      /\ fst (list_accounts (fixed_server (accounts_reply js)) client0 st0) = Ok accounts)
  /\ (forall r, req_url r = base_url "accounts" -> fixed_server (PDict []) r = Ok (PDict []))
  /\ fst (list_accounts (fixed_server (PDict [])) client0 st0) = Err (KeyError "accounts").
Proof.
  intros js. split; [apply fixed_server_accounts|]. split.
  - eexists. split; [repeat constructor; reflexivity|].
    apply (proj1 (list_accounts_decodes_in_order (fixed_server (accounts_reply js)) client0
                    (accounts_reply js) st0 (fixed_server_accounts _)) js _ eq_refl).
    repeat constructor; reflexivity.
  - split; [apply fixed_server_accounts|].
    apply (proj2 (list_accounts_decodes_in_order (fixed_server (PDict [])) client0
                    (PDict []) st0 (fixed_server_accounts _)) [] eq_refl eq_refl).
Defined.

Lemma list_transactions_decodes_in_order_witness :
  (forall r, req_url r = base_url "transactions" ->
     sample_server r = Ok (PDict [("transactions", PList [PDict sample_transaction])]))
  /\ getitem (PDict [("transactions", PList [PDict sample_transaction])]) "transactions"
     = Ok (PList [PDict sample_transaction])
  /\ exists txs, fst (list_transactions sample_server client0 PNone PNone PNone (PBool false) st0) = Ok txs
     /\ Forall2 (fun t o => Transaction_new t = Ok o) [PDict sample_transaction] txs.
Proof.
  assert (Hs : forall r, req_url r = base_url "transactions" ->
            sample_server r = Ok (PDict [("transactions", PList [PDict sample_transaction])])).
  { intros r Hr. unfold sample_server. rewrite Hr. reflexivity. }
  split; [exact Hs|]. split; [reflexivity|].
  pose (txs := match fst (list_transactions sample_server client0 PNone PNone PNone (PBool false) st0)
                with Ok l => l | Err _ => [] end).
  assert (Hok : fst (list_transactions sample_server client0 PNone PNone PNone (PBool false) st0)
                = Ok txs) by (vm_compute; reflexivity).
  exists txs. split; [exact Hok|].
  exact (list_transactions_decodes_in_order sample_server client0 _ [PDict sample_transaction]
           PNone PNone PNone (PBool false) st0 txs Hs eq_refl Hok).
Defined.


Lemma account_missing_key_fails_witness :
  "closed" ∈ ["id"; "description"; "created"; "type"; "closed"; "owners"]
  /\ dget "closed" (List.filter (fun kv => negb (String.eqb kv.1 "closed")) sample_account_kvs) = None
  /\ exists e, Account_new_from_api_response
                 (PDict (List.filter (fun kv => negb (String.eqb kv.1 "closed")) sample_account_kvs))
               = Err e.
Proof.
  assert (Hk : "closed" ∈ ["id"; "description"; "created"; "type"; "closed"; "owners"]).
  { rewrite !elem_of_cons. right; right; right; right; left; reflexivity. }
  split; [exact Hk|]. split; [reflexivity|].
  apply (account_missing_key_fails _ "closed" Hk). reflexivity.
Defined.

Lemma transaction_repr_errors_witness :
  let kvs := [("id", PStr "tx_2"); ("created", PStr "2020-02-29T13:05:09Z");
              ("description", PStr "Refund"); ("amount", PStr "250"); ("currency", PStr "GBP")] in
  exists t, Transaction_new (PDict kvs) = Ok t /\ Transaction_repr t = Err TypeError.
Proof.
  intros kvs. eexists. split; [reflexivity|].
  eapply (proj2 (transaction_repr_errors kvs _ eq_refl)); reflexivity.
Defined.


Lemma query_frame_witness :
  let st := mkstate {[0%Z := {["Accept" := "json"]}; 1%Z := {["Accept" := "xml"]}]} 2 []
              (mkdate 2020 1 15) in
  heap_ok st /\ is_Some (heap st !! 0%Z)
  /\ heap (snd (_query sample_server client0 "ping/whoami" "GET" ∅ PNone (Some 0%Z) st)) !! 1%Z
     = Some {["Accept" := "xml"]}.
Proof.
  intros st.
  assert (Hok : heap_ok st).
  { intros l [v Hl]. cbn [heap next_loc st] in Hl |- *.
    apply lookup_insert_Some in Hl as [[<- _]|[_ Hl]]; [lia|].
    apply lookup_singleton_Some in Hl as [<- _]. lia. }
  assert (H0 : is_Some (heap st !! 0%Z)) by (eexists; reflexivity).
  split; [exact Hok|]. split; [exact H0|].
  rewrite (proj2 (query_frame sample_server client0 "ping/whoami" "GET" ∅ PNone (Some 0%Z) st Hok H0)
             1%Z ltac:(discriminate) ltac:(eexists; reflexivity)).
  reflexivity.
Defined.


